(** * SDapp: the Stable Diffusion loader of [streamlit_app.py]

    A shallow embedding of the class [StableDiffusionLoader] and a
    verification of its construction and generation contract.

    The class is an orchestration shim: everything heavy (torch, diffusers,
    PIL) is an external collaborator.  The collaborators are therefore an
    interface ([Collaborator]) over which every definition and theorem is
    generic; the shim itself is written in a state-and-exception monad whose
    state holds the instance dictionary of [self], the collaborators' own
    state, the filesystem and the trace of external calls. *)

From Stdlib Require Import ZArith.
From stdpp Require Import gmap strings list pretty.

Local Open Scope string_scope.
Local Open Scope list_scope.

(** ** Python values and exceptions *)

(** The values that can reach the constructor's arguments.  [PyStr] is the
    only one for which [isinstance(_, str)] holds. *)
Inductive pyval : Type :=
  | PyNone
  | PyBool (b : bool)
  | PyInt (z : Z)
  | PyStr (s : string).

(** A raised exception: its class and its message. *)
Record exn : Type := Raised { exn_class : string; exn_msg : string }.

Definition MemoryError (msg : string) : exn := Raised "MemoryError" msg.
Definition AssertionError (msg : string) : exn := Raised "AssertionError" msg.
Definition AttributeError (msg : string) : exn := Raised "AttributeError" msg.
Definition TypeError (msg : string) : exn := Raised "TypeError" msg.
Definition IndexError (msg : string) : exn := Raised "IndexError" msg.

(** The error kinds of the specification, read off the exception class the
    code raises for them. *)
Definition ResourceUnavailable (e : exn) : Prop := exn_class e = "MemoryError".
Definition InvalidArgument (e : exn) : Prop := exn_class e = "AssertionError".

Definition isinstance_str (v : pyval) : bool :=
  match v with PyStr _ => true | _ => false end.

Definition type_name (v : pyval) : string :=
  match v with
  | PyNone => "NoneType"
  | PyBool _ => "bool"
  | PyInt _ => "int"
  | PyStr _ => "str"
  end.

(** [a == b].  [bool] is a subclass of [int], so [True == 1]. *)
Definition py_eq (a b : pyval) : bool :=
  match a, b with
  | PyNone, PyNone => true
  | PyStr s, PyStr t => bool_decide (s = t)
  | PyBool x, PyBool y => bool_decide (x = y)
  | PyInt x, PyInt y => bool_decide (x = y)
  | PyBool x, PyInt y | PyInt y, PyBool x => bool_decide (Z.b2z x = y)
  | _, _ => false
  end.

(** [format(v, '')], which is what an f-string field [{v}] evaluates. *)
Definition py_format (v : pyval) : string :=
  match v with
  | PyNone => "None"
  | PyBool true => "True"
  | PyBool false => "False"
  | PyInt z => pretty z
  | PyStr s => s
  end.

(** [len(v)]: defined on strings only among these values. *)
Definition py_len (v : pyval) : exn + nat :=
  match v with
  | PyStr s => inr (String.length s)
  | _ => inl (TypeError ("object of type '" +:+ type_name v +:+ "' has no len()"))
  end.

(** [l[i]] on a sequence. *)
Definition py_index {A : Type} (l : list A) (i : nat) : exn + A :=
  match l !! i with
  | Some x => inr x
  | None => inl (IndexError "list index out of range")
  end.

(** ** The external collaborators *)

Inductive torch_dtype : Type := float16 | float32.

(** What the shim consumes from torch, diffusers and PIL.  Every operation
    may raise, and may change the collaborators' own state (downloaded
    weights, device memory, random generator). *)
Record Collaborator : Type := {
  image : Type;
  pipeline : Type;
  cstate : Type;
  (** [torch.cuda.is_available()] *)
  cuda_is_available : cstate → bool;
  (** [StableDiffusionPipeline.from_pretrained(name, revision=, torch_dtype=,
      use_auth_token=)] *)
  from_pretrained :
    pyval → string → torch_dtype → bool → cstate → (exn + pipeline) * cstate;
  (** [pipe.to(device)] *)
  pipe_to : pipeline → pyval → cstate → (exn + pipeline) * cstate;
  (** [autocast(device).__enter__()] *)
  autocast_enter : pyval → cstate → (exn + unit) * cstate;
  (** [autocast(device).__exit__(...)]: restores the previous mode and does
      not swallow the exception of the body. *)
  autocast_exit : pyval → cstate → cstate;
  (** [pipe(prompt)]: the batches of images *)
  pipe_call : pipeline → pyval → cstate → (exn + list (list image)) * cstate;
  (** [image.save(location)] *)
  image_save :
    image → string → gmap string (list Byte.byte) → exn + gmap string (list Byte.byte);
}.

(** The calls that leave the shim, in the order they are made. *)
Inductive event : Type :=
  | EvCudaIsAvailable
  | EvFromPretrained (name : pyval) (revision : string) (dtype : torch_dtype)
      (use_auth_token : bool)
  | EvTo (device : pyval)
  | EvAutocastEnter (device : pyval)
  | EvCall (prompt : pyval)
  | EvAutocastExit (device : pyval)
  | EvSave (location : string)
  | EvPrint (line : string).

Definition is_save (e : event) : bool :=
  match e with EvSave _ => true | _ => false end.

Definition is_device_resolution (e : event) : bool :=
  match e with EvCudaIsAvailable => true | _ => false end.

(** ** The state and the monad *)

Section Loader.

Variable C : Collaborator.

Record state : Type := State {
  self_dict : gmap string pyval;        (** [self.__dict__] *)
  collab : cstate C;
  fs : gmap string (list Byte.byte);
  trace : list event;
}.

Definition M (A : Type) : Type := state → (exn + A) * state.

Definition ret {A : Type} (a : A) : M A := λ s, (inr a, s).

Definition raise {A : Type} (e : exn) : M A := λ s, (inl e, s).

Definition bind {A B : Type} (m : M A) (k : A → M B) : M B :=
  λ s, match m s with
       | (inr a, s') => k a s'
       | (inl e, s') => (inl e, s')
       end.

Definition emit (e : event) : M unit :=
  λ s, (inr tt, State (self_dict s) (collab s) (fs s) (trace s ++ [e])).

(** A call into the collaborators, which sees and changes only their
    own state. *)
Definition call {A : Type} (f : cstate C → (exn + A) * cstate C) : M A :=
  λ s, let (r, c) := f (collab s) in
       (r, State (self_dict s) c (fs s) (trace s)).

(** [self.name = v] *)
Definition setattr (name : string) (v : pyval) : M unit :=
  λ s, (inr tt, State (<[name := v]> (self_dict s)) (collab s) (fs s) (trace s)).

(** [self.name] *)
Definition getattr (name : string) : M pyval :=
  λ s, match self_dict s !! name with
       | Some v => (inr v, s)
       | None =>
           (inl (AttributeError
                   ("'StableDiffusionLoader' object has no attribute '"
                    +:+ name +:+ "'")), s)
       end.

Definition lift {A : Type} (r : exn + A) : M A :=
  match r with inr a => ret a | inl e => raise e end.

(** A call that reads and writes files. *)
Definition file_io (f : gmap string (list Byte.byte) → exn + gmap string (list Byte.byte))
  : M unit :=
  λ s, match f (fs s) with
       | inr fs' => (inr tt, State (self_dict s) (collab s) fs' (trace s))
       | inl e => (inl e, s)
       end.

(** [try: body finally: cleanup], the shape of a [with] block whose
    [__exit__] returns false: [cleanup] runs on both exits of [body], and
    the outcome of [body] stands unless [cleanup] itself raises. *)
Definition finally {A : Type} (body : M A) (cleanup : M unit) : M A :=
  λ s, let (r, s1) := body s in
       match cleanup s1 with
       | (inr _, s2) => (r, s2)
       | (inl e, s2) => (inl e, s2)
       end.

(** Allocation of the instance, before [__init__] runs on it. *)
Definition new_instance : M unit :=
  λ s, (inr tt, State ∅ (collab s) (fs s) (trace s)).

(** The reference [self]. *)
Definition get_self : M (gmap string pyval) := λ s, (inr (self_dict s), s).

(** [assert c, msg] *)
Definition py_assert (c : bool) (msg : string) : M unit :=
  if c then ret tt else raise (AssertionError msg).

End Loader.

Arguments ret {C A} a.
Arguments raise {C A} e.
Arguments bind {C A B} m k.
Arguments emit {C} e.
Arguments call {C A} f.
Arguments setattr {C} name v.
Arguments getattr {C} name.
Arguments lift {C A} r.
Arguments file_io {C} f.
Arguments finally {C A} body cleanup.
Arguments new_instance {C}.
Arguments get_self {C}.
Arguments py_assert {C} c msg.
Arguments self_dict {C} s.
Arguments collab {C} s.
Arguments fs {C} s.
Arguments trace {C} s.
Arguments State {C} _ _ _ _.

Declare Scope loader_scope.
Delimit Scope loader_scope with loader.
Notation "x <- m ;; k" := (bind m (λ x, k))
  (at level 100, m at next level, right associativity) : loader_scope.
Notation "m ;; k" := (bind m (λ _, k))
  (at level 100, right associativity) : loader_scope.
Local Open Scope loader_scope.

(** ** The class [StableDiffusionLoader] *)

Section StableDiffusionLoader.

Variable C : Collaborator.

(** [torch.cuda.is_available()] *)
Definition torch_cuda_is_available : M C bool :=
  emit EvCudaIsAvailable ;;
  call (λ c, (inr (cuda_is_available C c), c)).

Definition default_pretrain_pipe : pyval := PyStr "CompVis/stable-diffusion-v1-4".

(** [__init__(self, prompt, pretrain_pipe='CompVis/stable-diffusion-v1-4')] *)
Definition __init__ (prompt : pyval) (pretrain_pipe : option pyval) : M C unit :=
  setattr "prompt" prompt ;;
  setattr "pretrain_pipe" (default default_pretrain_pipe pretrain_pipe) ;;
  avail <- torch_cuda_is_available ;;
  setattr "device" (PyStr (if avail then "cuda" else "cpu")) ;;
  device <- getattr "device" ;;
  (if py_eq device (PyStr "cpu")
   then raise (MemoryError "GPU need for inference")
   else ret tt) ;;
  p <- getattr "prompt" ;;
  py_assert (isinstance_str p) "Please enter a string into the prompt field" ;;
  pp <- getattr "pretrain_pipe" ;;
  py_assert (isinstance_str pp)
    "Please use value such as `CompVis/stable-diffusion-v1-4` for pretrained pipeline".

(** [StableDiffusionLoader(prompt, pretrain_pipe)]: a fresh instance is
    initialised and, when [__init__] returns, handed to the caller. *)
Definition StableDiffusionLoader (prompt : pyval) (pretrain_pipe : option pyval)
  : M C (gmap string pyval) :=
  new_instance ;;
  __init__ prompt pretrain_pipe ;;
  get_self.

(** [image.save(location)]: the one step that touches the filesystem. *)
Definition Image_save (img : image C) (location : string) : M C unit :=
  emit (EvSave location) ;;
  file_io (image_save C img location).

(** [print(line)] *)
Definition print (line : string) : M C unit := emit (EvPrint line).

(** [with autocast(device): body].  The context is left on both exits of
    the body, and the exception of the body, if any, goes on. *)
Definition with_autocast {A : Type} (device : pyval) (body : M C A) : M C A :=
  emit (EvAutocastEnter device) ;;
  call (autocast_enter C device) ;;
  finally body
    (emit (EvAutocastExit device) ;;
     call (λ c, (inr tt, autocast_exit C device c))).

(** [generate_image_from_prompt(self, save_location='prompt.jpg',
    use_token=False, verbose=False)]; an argument that is not supplied is
    [None] here and takes its default. *)
Definition generate_image_from_prompt
    (save_location : option string) (use_token verbose : option bool)
  : M C (image C) :=
  let save_location := default "prompt.jpg" save_location in
  let use_token := default false use_token in
  let verbose := default false verbose in
  name <- getattr "pretrain_pipe" ;;
  emit (EvFromPretrained name "fp16" float16 use_token) ;;
  pipe <- call (from_pretrained C name "fp16" float16 use_token) ;;
  device <- getattr "device" ;;
  emit (EvTo device) ;;
  pipe <- call (pipe_to C pipe device) ;;
  device <- getattr "device" ;;
  img <- with_autocast device
           (prompt <- getattr "prompt" ;;
            emit (EvCall prompt) ;;
            out <- call (pipe_call C pipe prompt) ;;
            batch <- lift (py_index out 0) ;;
            lift (py_index batch 0)) ;;
  Image_save img save_location ;;
  (if verbose
   then print ("[INFO] saving image to " +:+ save_location)
   else ret tt) ;;
  ret img.

(** [__str__(self)] *)
Definition __str__ : M C string :=
  prompt <- getattr "prompt" ;;
  ret ("[INFO] Generating image for prompt: " +:+ py_format prompt).

(** [__len__(self)] *)
Definition __len__ : M C nat :=
  prompt <- getattr "prompt" ;;
  lift (py_len prompt).

(** A method call [obj.m(...)]: [m] runs with [self] bound to [obj]. *)
Definition on {A : Type} (obj : gmap string pyval) (m : M C A) : M C A :=
  λ s, m (State obj (collab s) (fs s) (trace s)).

End StableDiffusionLoader.

Arguments torch_cuda_is_available {C}.
Arguments __init__ {C} prompt pretrain_pipe.
Arguments StableDiffusionLoader {C} prompt pretrain_pipe.
Arguments Image_save {C} img location.
Arguments print {C} line.
Arguments with_autocast {C A} device body.
Arguments generate_image_from_prompt {C} save_location use_token verbose.
Arguments __str__ {C}.
Arguments __len__ {C}.
Arguments on {C A} obj m.

(** ** A stub collaborator

    The stubbed model of the specification's tests: it answers every
    prompt with one fixed image, can be told to fail at one of its calls,
    and counts the calls it has served. *)

Module Stub.

Inductive fault : Type := NoFault | AtResolve | AtBind | AtEnter | AtInvoke.

Record t : Type := Mk { gpu : bool; failing : fault; served : nat }.

Definition tick (c : t) : t := Mk (gpu c) (failing c) (S (served c)).

Definition boom (what : string) : exn := Raised "RuntimeError" what.

(** The bytes of the fixed image. *)
Definition red_circle : list Byte.byte := [Byte.xff; Byte.xd8; Byte.xff; Byte.xd9].

Definition resolve (name : pyval) (_ : string) (_ : torch_dtype) (_ : bool) (c : t)
  : (exn + pyval) * t :=
  match failing c with
  | AtResolve => (inl (boom "cannot resolve"), tick c)
  | _ => (inr name, tick c)
  end.

Definition bind_device (p : pyval) (_ : pyval) (c : t) : (exn + pyval) * t :=
  match failing c with
  | AtBind => (inl (boom "CUDA out of memory"), tick c)
  | _ => (inr p, tick c)
  end.

Definition enter (_ : pyval) (c : t) : (exn + unit) * t :=
  match failing c with
  | AtEnter => (inl (boom "autocast"), tick c)
  | _ => (inr tt, tick c)
  end.

Definition invoke (_ _ : pyval) (c : t) : (exn + list (list (list Byte.byte))) * t :=
  match failing c with
  | AtInvoke => (inl (boom "inference failed"), tick c)
  | _ => (inr [[red_circle]], tick c)
  end.

(** Saving writes the bytes of the image; the empty path is not
    writable. *)
Definition save (img : list Byte.byte) (location : string)
    (files : gmap string (list Byte.byte)) : exn + gmap string (list Byte.byte) :=
  if bool_decide (location = "")
  then inl (Raised "FileNotFoundError" "No such file or directory")
  else inr (<[location := img]> files).

Definition collaborator : Collaborator := {|
  image := list Byte.byte;
  pipeline := pyval;
  cstate := t;
  cuda_is_available := gpu;
  from_pretrained := resolve;
  pipe_to := bind_device;
  autocast_enter := enter;
  autocast_exit := λ _ c, c;
  pipe_call := invoke;
  image_save := save;
|}.

(** The world before anything has run. *)
Definition boot (has_gpu : bool) (f : fault) : state collaborator :=
  @State collaborator ∅ (Mk has_gpu f 0) ∅ [].

End Stub.

(** ** The page script

    The [__main__] block of the file: it lays the page out with streamlit,
    takes the prompt from the widgets and, for a prompt of positive length,
    drives the class above and shows the file it saved. *)

(** The calls into streamlit; [I] is the type of images. *)
Inductive st_call (I : Type) : Type :=
  | st_set_page_config (page_title page_icon : string)
  | st_markdown (body : string) (unsafe_allow_html : bool)
  | st_title (body : string)
  | st_caption (body : string)
  | st_sidebar_enter                      (** [with st.sidebar:] *)
  | st_sidebar_exit
  | st_image_file (path : string)         (** [st.image('fig/hf.png')] *)
  | st_sidebar_selectbox (label : string) (options : list string) (index : nat)
  | st_text (body : string)
  | st_text_input (label : string)
  | st_spinner_enter (text : string)      (** [with st.spinner(text):] *)
  | st_spinner_exit
  | st_success (body : string)
  | st_image_object (img : I).            (** [st.image(image)] *)

Arguments st_set_page_config {I} page_title page_icon.
Arguments st_markdown {I} body unsafe_allow_html.
Arguments st_title {I} body.
Arguments st_caption {I} body.
Arguments st_sidebar_enter {I}.
Arguments st_sidebar_exit {I}.
Arguments st_image_file {I} path.
Arguments st_sidebar_selectbox {I} label options index.
Arguments st_text {I} body.
Arguments st_text_input {I} label.
Arguments st_spinner_enter {I} text.
Arguments st_spinner_exit {I}.
Arguments st_success {I} body.
Arguments st_image_object {I} img.

(** The calls that tell the user an image was generated. *)
Definition reports_generation {I : Type} (c : st_call I) : bool :=
  match c with
  | st_success _ | st_image_object _ => true
  | _ => false
  end.

(** What the script consumes besides the class: streamlit, which answers
    each call with a value (the content of a widget, [None] for the
    others) or raises and keeps a state of its own; the reading of a text
    file, [open(path).read()]; and PIL's [Image.open(path)]. *)
Record Frontend (C : Collaborator) : Type := {
  ustate : Type;
  streamlit : st_call (image C) → ustate → (exn + pyval) * ustate;
  read_text : string → gmap string (list Byte.byte) → exn + string;
  Image_open : string → gmap string (list Byte.byte) → exn + image C;
}.

Arguments ustate {C} _.
Arguments streamlit {C} _ _ _.
Arguments read_text {C} _ _ _.
Arguments Image_open {C} _ _ _.

Definition is_None (v : pyval) : bool :=
  match v with PyNone => true | _ => false end.

Section Shell.

Variable C : Collaborator.
Variable F : Frontend C.

(** The state of a run of the script: the world of the class, the state
    of streamlit, and the streamlit calls made so far with their outcomes. *)
Record page : Type := Page {
  world : state C;
  ui : ustate F;
  shown : list (st_call (image C) * (exn + pyval));
}.

Definition Sh (A : Type) : Type := page → (exn + A) * page.

Definition sh_ret {A : Type} (a : A) : Sh A := λ pg, (inr a, pg).

Definition sh_bind {A B : Type} (m : Sh A) (k : A → Sh B) : Sh B :=
  λ pg, match m pg with
        | (inr a, pg') => k a pg'
        | (inl e, pg') => (inl e, pg')
        end.

Definition sh_lift {A : Type} (r : exn + A) : Sh A := λ pg, (r, pg).

(** A step of the class or of [print], run in the world of the page. *)
Definition in_world {A : Type} (m : M C A) : Sh A :=
  λ pg, let (r, w) := m (world pg) in (r, Page w (ui pg) (shown pg)).

(** A streamlit call. *)
Definition st (c : st_call (image C)) : Sh pyval :=
  λ pg, let (r, u) := streamlit F c (ui pg) in
        (r, Page (world pg) u (shown pg ++ [(c, r)])).

(** [with open(path) as f: ... f.read() ...] *)
Definition read (path : string) : Sh string :=
  λ pg, (read_text F path (fs (world pg)), pg).

(** [Image.open(path)] *)
Definition open_image (path : string) : Sh (image C) :=
  λ pg, (Image_open F path (fs (world pg)), pg).

(** [with ...: body] for a streamlit context: entered by one call, left
    by another on both exits of the body, whose exception goes on. *)
Definition st_with {A : Type} (enter leave : st_call (image C)) (body : Sh A) : Sh A :=
  sh_bind (st enter) (λ _,
    λ pg, let (r, pg1) := body pg in
          match st leave pg1 with
          | (inr _, pg2) => (r, pg2)
          | (inl e, pg2) => (inl e, pg2)
          end).

End Shell.

Arguments Page {C F} _ _ _.
Arguments world {C F} _.
Arguments ui {C F} _.
Arguments shown {C F} _.
Arguments sh_ret {C F A} a.
Arguments sh_bind {C F A B} m k.
Arguments sh_lift {C F A} r.
Arguments in_world {C F A} m.
Arguments st {C F} c.
Arguments read {C F} path.
Arguments open_image {C F} path.
Arguments st_with {C F A} enter leave body.

Declare Scope shell_scope.
Delimit Scope shell_scope with shell.
Notation "x <- m ;; k" := (sh_bind m (λ x, k))
  (at level 100, m at next level, right associativity) : shell_scope.
Notation "m ;; k" := (sh_bind m (λ _, k))
  (at level 100, right associativity) : shell_scope.

Section Script.

Variable C : Collaborator.
Variable F : Frontend C.

Local Open Scope shell_scope.

Definition SAVE_LOCATION : string := "prompt.jpg".

Definition newline : string := String (Ascii.ascii_of_nat 10) "".

(** Lines 88-105: the page title, the style sheet, the headings and the
    sidebar; the value of the selectbox is what the rest goes on with. *)
Definition page_layout : Sh C F pyval :=
  st (st_set_page_config "Diffusion Model generator" "fig/favicon.ico") ;;
  css <- read "style.css" ;;
  st (st_markdown ("<style>" +:+ css +:+ "</style>") true) ;;
  st (st_title "Image generator - Stable Diffusion") ;;
  st (st_caption
        "An app to generate images based on text prompts with a :blue[_Stable Diffusion_] model") ;;
  st_with st_sidebar_enter st_sidebar_exit
    (st (st_image_file "fig/hf.png") ;;
     add_selectbox <- st (st_sidebar_selectbox "Prompt examples" ["Style 1"; "Style 2"] 0) ;;
     st (st_markdown "Use the above drop down box to generate _prompt_ examples" false) ;;
     st (st_text "SD Streamlit app ver1") ;;
     sh_ret add_selectbox).

(** Lines 108-110: the text field, overridden by the selectbox. *)
Definition text_prompt (add_selectbox : pyval) : Sh C F pyval :=
  prompt <- st (st_text_input "Input the prompt desired") ;;
  sh_ret (if negb (py_eq add_selectbox (PyStr "None")) || is_None prompt
          then add_selectbox
          else prompt).

(** Lines 113-126: generation and display, for a prompt of positive
    length. *)
Definition handle_prompt (prompt : pyval) : Sh C F unit :=
  n <- sh_lift (py_len prompt) ;;
  if bool_decide (0 < n)
  then
    st (st_markdown
          (newline +:+ "        This will show an image using **stable diffusion** of the desired "
           +:+ py_format prompt +:+ " entered:" +:+ newline +:+ "        ") false) ;;
    in_world (print (py_format prompt)) ;;
    st_with (st_spinner_enter "Generating image based on prompt") st_spinner_exit
      (sd <- in_world (StableDiffusionLoader prompt None) ;;
       in_world (on sd (generate_image_from_prompt (Some SAVE_LOCATION) None None)) ;;
       st (st_success "Generated stable diffusion model") ;;
       sh_ret tt) ;;
    img <- open_image SAVE_LOCATION ;;
    st (st_image_object img) ;;
    sh_ret tt
  else sh_ret tt.

(** The [__main__] block. *)
Definition main : Sh C F unit :=
  add_selectbox <- page_layout ;;
  prompt <- text_prompt add_selectbox ;;
  handle_prompt prompt.

End Script.

Arguments page_layout {C F}.
Arguments text_prompt {C F} add_selectbox.
Arguments handle_prompt {C F} prompt.
Arguments main {C F}.

(** A stub of the front end over the stub collaborator: the selectbox
    and the text field hold given values, every other call answers [None],
    the style sheet is a fixed text and an image is opened by reading its
    bytes. *)
Module Browser.

Definition answer (c : st_call (list Byte.byte)) (u : pyval * pyval)
  : (exn + pyval) * (pyval * pyval) :=
  match c with
  | st_sidebar_selectbox _ _ _ => (inr (fst u), u)
  | st_text_input _ => (inr (snd u), u)
  | _ => (inr PyNone, u)
  end.

Definition open (path : string) (files : gmap string (list Byte.byte))
  : exn + list Byte.byte :=
  match files !! path with
  | Some data => inr data
  | None => inl (Raised "FileNotFoundError" path)
  end.

Definition frontend : Frontend Stub.collaborator :=
  Build_Frontend Stub.collaborator (pyval * pyval) answer (λ _ _, inr "body {}") open.

(** The page before the script runs, with the selectbox on [selected] and
    [typed] in the text field. *)
Definition start (has_gpu : bool) (selected typed : pyval)
  : page Stub.collaborator frontend :=
  @Page Stub.collaborator frontend (Stub.boot has_gpu Stub.NoFault) (selected, typed) [].

End Browser.

(** The instance dictionary that [__init__] builds. *)
Definition instance (prompt pretrain_pipe : pyval) (device : string)
  : gmap string pyval :=
  <["device" := PyStr device]>
    (<["pretrain_pipe" := pretrain_pipe]> (<["prompt" := prompt]> ∅)).

Definition msg_prompt : string := "Please enter a string into the prompt field".
Definition msg_pipe : string :=
  "Please use value such as `CompVis/stable-diffusion-v1-4` for pretrained pipeline".

(** The external calls of one successful generation, in order. *)
Definition generation_steps (name : pyval) (use_token : bool) (device prompt : pyval)
    (location : string) (verbose : bool) : list event :=
  [ EvFromPretrained name "fp16" float16 use_token;
    EvTo device;
    EvAutocastEnter device;
    EvCall prompt;
    EvAutocastExit device;
    EvSave location ]
  ++ (if verbose then [EvPrint ("[INFO] saving image to " +:+ location)] else []).

(** The collaborators carry a generation through: the pipeline that was
    resolved for [name] is the one bound to [device], the bound one is the
    one invoked on [prompt] inside the precision context of [device], and
    [img], the first image of the first batch it returns, is the one
    saved at [location]. *)
Inductive collaboration (C : Collaborator) (s : state C) (use_token : bool)
    (location : string) (name device prompt : pyval) (img : image C)
    (c' : cstate C) (fs' : gmap string (list Byte.byte)) : Prop :=
  | Collaboration p c1 p' c2 c3 out c4 batch :
      self_dict s !! "pretrain_pipe" = Some name →
      self_dict s !! "device" = Some device →
      self_dict s !! "prompt" = Some prompt →
      from_pretrained C name "fp16" float16 use_token (collab s) = (inr p, c1) →
      pipe_to C p device c1 = (inr p', c2) →
      autocast_enter C device c2 = (inr tt, c3) →
      pipe_call C p' prompt c3 = (inr out, c4) →
      out !! 0 = Some batch →
      batch !! 0 = Some img →
      c' = autocast_exit C device c4 →
      image_save C img location (fs s) = inr fs' →
      collaboration C s use_token location name device prompt img c' fs'.

(** The model collaborator raises [e] on the way to an image: at the
    resolution of the pipeline, at its binding to the device, on entry
    into the precision context, or at the invocation. *)
Inductive collaborator_raises (C : Collaborator) (name device prompt : pyval)
    (use_token : bool) (c : cstate C) (e : exn) : Prop :=
  | RaisesAtResolution c' :
      from_pretrained C name "fp16" float16 use_token c = (inl e, c') →
      collaborator_raises C name device prompt use_token c e
  | RaisesAtBinding p c1 c' :
      from_pretrained C name "fp16" float16 use_token c = (inr p, c1) →
      pipe_to C p device c1 = (inl e, c') →
      collaborator_raises C name device prompt use_token c e
  | RaisesAtContext p c1 p' c2 c' :
      from_pretrained C name "fp16" float16 use_token c = (inr p, c1) →
      pipe_to C p device c1 = (inr p', c2) →
      autocast_enter C device c2 = (inl e, c') →
      collaborator_raises C name device prompt use_token c e
  | RaisesAtInvocation p c1 p' c2 c3 c' :
      from_pretrained C name "fp16" float16 use_token c = (inr p, c1) →
      pipe_to C p device c1 = (inr p', c2) →
      autocast_enter C device c2 = (inr tt, c3) →
      pipe_call C p' prompt c3 = (inl e, c') →
      collaborator_raises C name device prompt use_token c e.

(** What a method may do to the world of an instance it does not write
    to: the dictionary of [self] stays, and the trace only grows, by calls
    other than the resolution of the device. *)
Definition same_self {C : Collaborator} (s s' : state C) : Prop :=
  self_dict s' = self_dict s ∧
  ∃ t, trace s' = trace s ++ t ∧ List.filter is_device_resolution t = [].

Definition keeps_self {C : Collaborator} {A : Type} (m : M C A) : Prop :=
  ∀ s, same_self s (snd (m s)).

(** The stub's world once [StableDiffusionLoader("a red circle")] has
    returned on a machine with an accelerator. *)
Definition stub_ready (f : Stub.fault) : state Stub.collaborator :=
  snd (StableDiffusionLoader (PyStr "a red circle") None (Stub.boot true f)).

(** The stub's world after a call on that instance in which the binding
    to the device fails. *)
Definition after_failed_call : state Stub.collaborator :=
  snd (on (self_dict (stub_ready Stub.NoFault))
          (generate_image_from_prompt None None None) (stub_ready Stub.AtBind)).

(** A stub whose pipeline answers with the batches [out], whatever they
    are, and is otherwise the stub above. *)
Definition answering (out : list (list (list Byte.byte))) : Collaborator := {|
  image := list Byte.byte;
  pipeline := pyval;
  cstate := Stub.t;
  cuda_is_available := Stub.gpu;
  from_pretrained := Stub.resolve;
  pipe_to := Stub.bind_device;
  autocast_enter := Stub.enter;
  autocast_exit := λ _ c, c;
  pipe_call := λ _ _ c, (inr out, Stub.tick c);
  image_save := Stub.save;
|}.

(** Its world once [StableDiffusionLoader("a red circle")] has returned. *)
Definition answering_ready (out : list (list (list Byte.byte))) : state (answering out) :=
  snd (StableDiffusionLoader (PyStr "a red circle") None
         (@State (answering out) ∅ (Stub.Mk true Stub.NoFault 0) ∅ [])).

(** * Construction *)

Section Construction.

Variable C : Collaborator.
Implicit Types (s : state C) (prompt : pyval) (pipe : option pyval).

Lemma instance_prompt prompt pp d : instance prompt pp d !! "prompt" = Some prompt.
Proof. reflexivity. Qed.

Lemma instance_pretrain_pipe prompt pp d :
  instance prompt pp d !! "pretrain_pipe" = Some pp.
Proof. reflexivity. Qed.

Lemma instance_device prompt pp d : instance prompt pp d !! "device" = Some (PyStr d).
Proof. reflexivity. Qed.

(** Without an accelerator the constructor stops at the device check. *)
Lemma init_cpu prompt pipe s :
  cuda_is_available C (collab s) = false →
  StableDiffusionLoader prompt pipe s =
    (inl (MemoryError "GPU need for inference"),
     State (instance prompt (default default_pretrain_pipe pipe) "cpu")
           (collab s) (fs s) (trace s ++ [EvCudaIsAvailable])).
Proof.
  intros Hdev.
  unfold StableDiffusionLoader, __init__, torch_cuda_is_available, new_instance,
    get_self, bind, setattr, emit, call, getattr, ret, raise; simpl.
  rewrite Hdev. reflexivity.
Qed.

(** With an accelerator the two assertions decide. *)
Lemma init_gpu prompt pipe s :
  cuda_is_available C (collab s) = true →
  StableDiffusionLoader prompt pipe s =
    (let pp := default default_pretrain_pipe pipe in
     if isinstance_str prompt
     then if isinstance_str pp
          then inr (instance prompt pp "cuda")
          else inl (AssertionError msg_pipe)
     else inl (AssertionError msg_prompt),
     State (instance prompt (default default_pretrain_pipe pipe) "cuda")
           (collab s) (fs s) (trace s ++ [EvCudaIsAvailable])).
Proof.
  intros Hdev.
  unfold StableDiffusionLoader, __init__, torch_cuda_is_available, new_instance,
    get_self, bind, setattr, emit, call, getattr, ret, raise, py_assert; simpl.
  rewrite Hdev.
  destruct prompt, (default default_pretrain_pipe pipe); reflexivity.
Qed.

(** Whatever the environment, a constructor that returns has checked
    both types and found the accelerator. *)
Lemma init_inv prompt pipe s obj s' :
  StableDiffusionLoader prompt pipe s = (inr obj, s') →
  ∃ P N, prompt = PyStr P ∧ default default_pretrain_pipe pipe = PyStr N ∧
         obj = instance (PyStr P) (PyStr N) "cuda" ∧
         s' = State obj (collab s) (fs s) (trace s ++ [EvCudaIsAvailable]).
Proof.
  destruct (cuda_is_available C (collab s)) eqn:Hdev.
  - rewrite (init_gpu _ _ _ Hdev). cbv zeta.
    destruct prompt as [| | |P]; simpl; try discriminate.
    destruct (default default_pretrain_pipe pipe) as [| | |N]; simpl; try discriminate.
    intros [= <- <-]. by exists P, N.
  - rewrite (init_cpu _ _ _ Hdev). discriminate.
Qed.

(** C1. In an environment without an accelerated device, construction
    fails with [ResourceUnavailable] (the [MemoryError] of the device
    check) for every prompt and model identifier, well-typed or not: the
    device check comes before the validation of the arguments. *)
Theorem construction_without_accelerator prompt pipe s :
  cuda_is_available C (collab s) = false →
  ∃ e, fst (StableDiffusionLoader prompt pipe s) = inl e ∧
       ResourceUnavailable e ∧
       e = MemoryError "GPU need for inference".
Proof.
  intros Hdev. rewrite (init_cpu _ _ _ Hdev).
  eexists; split; [reflexivity | split; reflexivity].
Qed.

(** C2, as amended. With an accelerated device, construction fails with
    [InvalidArgument] (an [AssertionError]) exactly when the prompt or
    the model identifier is not a string; emptiness is not looked at. *)
Theorem construction_invalid_argument prompt pipe s :
  cuda_is_available C (collab s) = true →
  (∃ e, fst (StableDiffusionLoader prompt pipe s) = inl e ∧ InvalidArgument e)
  ↔ (isinstance_str prompt = false ∨
     isinstance_str (default default_pretrain_pipe pipe) = false).
Proof.
  intros Hdev. rewrite (init_gpu _ _ _ Hdev). cbv zeta. simpl fst.
  destruct (isinstance_str prompt),
    (isinstance_str (default default_pretrain_pipe pipe)); split.
  - intros (e & [=] & _).
  - intros [[=] | [=]].
  - auto.
  - intros _. eexists; split; reflexivity.
  - auto.
  - intros _. eexists; split; reflexivity.
  - auto.
  - intros _. eexists; split; reflexivity.
Qed.

(** C4. A non-empty prompt string and a non-empty model identifier (or
    the default one), with an accelerated device: construction succeeds
    and the instance holds the prompt as it was given. *)
Theorem construction_stores_prompt (P : string) (N : option string) s :
  P ≠ "" →
  N ≠ Some "" →
  cuda_is_available C (collab s) = true →
  ∃ obj s', StableDiffusionLoader (PyStr P) (PyStr <$> N) s = (inr obj, s') ∧
            obj !! "prompt" = Some (PyStr P).
Proof.
  intros _ _ Hdev. rewrite (init_gpu _ _ _ Hdev).
  destruct N; simpl; eexists _, _; (split; [reflexivity|]); reflexivity.
Qed.

(** [len(obj)] and [str(obj)] on an instance that holds a string prompt. *)
Lemma len_instance P pp d s :
  on (instance (PyStr P) pp d) __len__ s =
    (inr (String.length P), State (instance (PyStr P) pp d) (collab s) (fs s) (trace s)).
Proof. reflexivity. Qed.

Lemma str_instance P pp d s :
  on (instance (PyStr P) pp d) __str__ s =
    (inr ("[INFO] Generating image for prompt: " +:+ P),
     State (instance (PyStr P) pp d) (collab s) (fs s) (trace s)).
Proof. reflexivity. Qed.

(** C9. The length of a constructed instance is the length of the
    prompt string it was constructed with. *)
Theorem len_is_prompt_length prompt pipe s obj s' :
  StableDiffusionLoader prompt pipe s = (inr obj, s') →
  ∃ P, prompt = PyStr P ∧
       ∀ s1, fst (on obj __len__ s1) = inr (String.length P).
Proof.
  intros (P & N & -> & _ & -> & _)%init_inv.
  exists P; split; [done|]. intros s1. by rewrite len_instance.
Qed.

(** C10. The string rendering of a constructed instance is the fixed
    prefix followed by the prompt. *)
Theorem str_is_prefixed_prompt prompt pipe s obj s' :
  StableDiffusionLoader prompt pipe s = (inr obj, s') →
  ∃ P, prompt = PyStr P ∧
       ∀ s1, fst (on obj __str__ s1) =
             inr ("[INFO] Generating image for prompt: " +:+ P).
Proof.
  intros (P & N & -> & _ & -> & _)%init_inv.
  exists P; split; [done|]. intros s1. by rewrite str_instance.
Qed.

End Construction.

(** * Generation *)

Ltac unfold_loader :=
  unfold generate_image_from_prompt, with_autocast, Image_save, print, finally,
    file_io, bind, getattr, emit, call, lift, py_index, ret, raise;
  cbn [self_dict collab fs trace fst snd].

Section Generation.

Variable C : Collaborator.
Implicit Types (s : state C) (loc : option string) (tok verbose : option bool).

(** The run of a generation that the collaborators carry through. *)
Lemma generate_run loc tok verbose s name device prompt img c' fs' :
  collaboration C s (default false tok) (default "prompt.jpg" loc)
    name device prompt img c' fs' →
  generate_image_from_prompt loc tok verbose s =
    (inr img,
     State (self_dict s) c' fs'
       (trace s ++ generation_steps name (default false tok) device prompt
                     (default "prompt.jpg" loc) (default false verbose))).
Proof.
  intros [p c1 p' c2 c3 out c4 batch Hn Hd Hp Hres Hto Hin Hcall Hb Hi -> Hsave].
  unfold_loader.
  repeat (progress (rewrite ?Hn, ?Hd, ?Hp, ?Hres, ?Hto, ?Hin, ?Hcall, ?Hb, ?Hi, ?Hsave;
                    cbn [self_dict collab fs trace])).
  unfold generation_steps.
  destruct verbose as [[]|]; cbn; rewrite <- ?app_assoc; reflexivity.
Qed.

(** Every generation that returns an image went that way. *)
Lemma generate_ok_inv loc tok verbose s img s' :
  generate_image_from_prompt loc tok verbose s = (inr img, s') →
  ∃ name device prompt c' fs',
    collaboration C s (default false tok) (default "prompt.jpg" loc)
      name device prompt img c' fs' ∧
    s' = State (self_dict s) c' fs'
           (trace s ++ generation_steps name (default false tok) device prompt
                         (default "prompt.jpg" loc) (default false verbose)).
Proof.
  intros Hrun.
  assert (∃ name device prompt c' fs',
            collaboration C s (default false tok) (default "prompt.jpg" loc)
              name device prompt img c' fs') as (name & device & prompt & c' & fs' & Hco).
  { revert Hrun. unfold_loader.
    destruct (self_dict s !! "pretrain_pipe") as [name|] eqn:Hn; [|by cbn].
    destruct (from_pretrained C name "fp16" float16 (default false tok) (collab s))
      as [[e|p] c1] eqn:Hres; [by cbn|].
    cbn [self_dict collab fs trace].
    destruct (self_dict s !! "device") as [device|] eqn:Hd; [|by cbn].
    cbn [self_dict collab fs trace].
    destruct (pipe_to C p device c1) as [[e|p'] c2] eqn:Hto; [by cbn|].
    cbn [self_dict collab fs trace]. rewrite Hd. cbn [self_dict collab fs trace].
    destruct (autocast_enter C device c2) as [[e|[]] c3] eqn:Hin; [by cbn|].
    cbn [self_dict collab fs trace].
    destruct (self_dict s !! "prompt") as [prompt|] eqn:Hp; [|by cbn].
    cbn [self_dict collab fs trace].
    destruct (pipe_call C p' prompt c3) as [[e|out] c4] eqn:Hcall; [by cbn|].
    cbn [self_dict collab fs trace].
    destruct (out !! 0) as [batch|] eqn:Hb; [|by cbn].
    destruct (batch !! 0) as [img'|] eqn:Hi; [|by cbn].
    cbn [self_dict collab fs trace].
    destruct (image_save C img' (default "prompt.jpg" loc) (fs s)) as [e|fs'] eqn:Hsave;
      [by cbn|].
    intros Heq.
    assert (img' = img) as ->.
    { destruct (default false verbose); cbn in Heq; congruence. }
    exists name, device, prompt, (autocast_exit C device c4), fs'.
    by econstructor. }
  exists name, device, prompt, c', fs'. split; [done|].
  rewrite (generate_run _ _ verbose _ _ _ _ _ _ _ Hco) in Hrun. congruence.
Qed.

(** C5. Every successful call goes through its steps in this order:
    the pipeline named by the instance is resolved with the [fp16]
    revision, half-precision weights and the auth-token flag; the resolved
    pipeline is bound to the device of the instance; the bound pipeline is
    invoked on the stored prompt between entry into and exit from the
    precision context of that device; the image is saved at the save
    location, which is [prompt.jpg] when none is supplied; the note is
    printed when verbose; the image is returned. *)
Theorem generate_steps_in_order loc tok verbose s img s' :
  generate_image_from_prompt loc tok verbose s = (inr img, s') →
  ∃ name device prompt c' fs',
    collaboration C s (default false tok) (default "prompt.jpg" loc)
      name device prompt img c' fs' ∧
    trace s' =
      trace s ++
       [ EvFromPretrained name "fp16" float16 (default false tok);
         EvTo device;
         EvAutocastEnter device;
         EvCall prompt;
         EvAutocastExit device;
         EvSave (default "prompt.jpg" loc) ] ++
       (if default false verbose
        then [EvPrint ("[INFO] saving image to " +:+ default "prompt.jpg" loc)]
        else []) ∧
    collab s' = c' ∧ fs s' = fs' ∧
    default "prompt.jpg" (@None string) = "prompt.jpg".
Proof.
  intros (name & device & prompt & c' & fs' & Hco & ->)%generate_ok_inv.
  by exists name, device, prompt, c', fs'.
Qed.

(** C6. One image per call, the first image of the first batch: when
    the pipeline answers the prompt with batches whose first one starts
    with [img], and saving [img] at the save location writes the bytes
    [data] there, the call returns [img], performs exactly one save, and
    afterwards the file at the save location holds exactly [data], with no
    other file touched. *)
Theorem generate_returns_first_image
    loc tok verbose s name device prompt p c1 p' c2 c3 img rest more c4 data :
  self_dict s !! "pretrain_pipe" = Some name →
  self_dict s !! "device" = Some device →
  self_dict s !! "prompt" = Some prompt →
  from_pretrained C name "fp16" float16 (default false tok) (collab s) = (inr p, c1) →
  pipe_to C p device c1 = (inr p', c2) →
  autocast_enter C device c2 = (inr tt, c3) →
  pipe_call C p' prompt c3 = (inr ((img :: rest) :: more), c4) →
  image_save C img (default "prompt.jpg" loc) (fs s) =
    inr (<[default "prompt.jpg" loc := data]> (fs s)) →
  ∃ s' t,
    generate_image_from_prompt loc tok verbose s = (inr img, s') ∧
    fs s' !! default "prompt.jpg" loc = Some data ∧
    fs s' = <[default "prompt.jpg" loc := data]> (fs s) ∧
    trace s' = trace s ++ t ∧
    List.filter is_save t = [EvSave (default "prompt.jpg" loc)].
Proof.
  intros Hn Hd Hp Hres Hto Hin Hcall Hsave.
  assert (collaboration C s (default false tok) (default "prompt.jpg" loc)
            name device prompt img (autocast_exit C device c4)
            (<[default "prompt.jpg" loc := data]> (fs s))) as Hco
    by (by econstructor).
  eexists _, _. split; [apply (generate_run _ _ _ _ _ _ _ _ _ _ Hco)|].
  cbn [fs trace]. split; [apply lookup_insert_eq|].
  split; [done|]. split; [done|].
  unfold generation_steps. by destruct (default false verbose).
Qed.

(** C3. When the model collaborator raises [e] at the resolution, the
    binding, the entry into the precision context or the invocation, the
    call raises that same [e], leaves every file as it was and never
    reaches the save: the calls it has made are an initial part of those
    of a successful generation, so none of them was made again. *)
Theorem collaborator_failure_propagates
    loc tok verbose s name device prompt e :
  self_dict s !! "pretrain_pipe" = Some name →
  self_dict s !! "device" = Some device →
  self_dict s !! "prompt" = Some prompt →
  collaborator_raises C name device prompt (default false tok) (collab s) e →
  ∃ s' t,
    generate_image_from_prompt loc tok verbose s = (inl e, s') ∧
    fs s' = fs s ∧
    trace s' = trace s ++ t ∧
    List.filter is_save t = [] ∧
    t `prefix_of` generation_steps name (default false tok) device prompt
                    (default "prompt.jpg" loc) (default false verbose).
Proof.
  intros Hn Hd Hp Hraise.
  destruct Hraise as [c' Hres | p c1 c' Hres Hto | p c1 p' c2 c' Hres Hto Hin
                     | p c1 p' c2 c3 c' Hres Hto Hin Hcall];
    unfold_loader;
    repeat (progress (rewrite ?Hn, ?Hd, ?Hp, ?Hres, ?Hto, ?Hin, ?Hcall;
                      cbn [self_dict collab fs trace]));
    eexists _, _; (split; [reflexivity|]); cbn [fs trace];
    (split; [reflexivity|]); rewrite <- ?app_assoc; (split; [reflexivity|]);
    (split; [reflexivity|]); eexists; reflexivity.
Qed.

(** C7. The verbose flag does not reach the result: with the same
    arguments otherwise and from the same state, a verbose and a quiet
    call return the same value (or raise the same exception) and leave
    the same instance, collaborator state and files; the verbose one
    has, after a success, one more entry in its trace, the note. *)
Theorem verbose_is_only_a_note loc tok s :
  let quiet := generate_image_from_prompt loc tok (Some false) s in
  let noisy := generate_image_from_prompt loc tok (Some true) s in
  fst noisy = fst quiet ∧
  self_dict (snd noisy) = self_dict (snd quiet) ∧
  collab (snd noisy) = collab (snd quiet) ∧
  fs (snd noisy) = fs (snd quiet) ∧
  trace (snd noisy) =
    trace (snd quiet) ++
     match fst quiet with
     | inr _ => [EvPrint ("[INFO] saving image to " +:+ default "prompt.jpg" loc)]
     | inl _ => []
     end ∧
  generate_image_from_prompt loc tok None s = quiet.
Proof.
  cbv zeta. unfold_loader.
  repeat (cbn [self_dict collab fs trace fst snd default from_option id]; case_match);
    cbn [self_dict collab fs trace fst snd default from_option id];
    simplify_eq; rewrite ?app_nil_r; done.
Qed.

End Generation.

(** * The instance is read-only after construction *)

Section Frame.

Variable C : Collaborator.

#[local] Instance same_self_preorder : PreOrder (@same_self C).
Proof.
  split.
  - intros s. split; [done|]. exists []. by rewrite app_nil_r.
  - intros s1 s2 s3 [Hd1 (t1 & Ht1 & Hf1)] [Hd2 (t2 & Ht2 & Hf2)].
    split; [congruence|]. exists (t1 ++ t2).
    rewrite Ht2, Ht1, <- app_assoc, List.filter_app, Hf1, Hf2. done.
Qed.

Lemma keeps_ret {A} (a : A) : keeps_self (@ret C A a).
Proof. intros s. reflexivity. Qed.

Lemma keeps_raise {A} e : keeps_self (@raise C A e).
Proof. intros s. reflexivity. Qed.

Lemma keeps_lift {A} (r : exn + A) : keeps_self (@lift C A r).
Proof. destruct r; [apply keeps_raise | apply keeps_ret]. Qed.

Lemma keeps_getattr name : keeps_self (@getattr C name).
Proof. intros s. unfold getattr. destruct (self_dict s !! name); reflexivity. Qed.

Lemma keeps_emit e : is_device_resolution e = false → keeps_self (@emit C e).
Proof.
  intros He s. split; [done|]. exists [e]. cbn. by rewrite He.
Qed.

Lemma keeps_call {A} (f : cstate C → (exn + A) * cstate C) : keeps_self (call f).
Proof.
  intros s. unfold call. destruct (f (collab s)) as [r c]. split; [done|].
  exists []. cbn. by rewrite app_nil_r.
Qed.

Lemma keeps_file_io f : keeps_self (@file_io C f).
Proof.
  intros s. unfold file_io. destruct (f (fs s)); [reflexivity|].
  split; [done|]. exists []. cbn. by rewrite app_nil_r.
Qed.

Lemma keeps_bind {A B} (m : M C A) (k : A → M C B) :
  keeps_self m → (∀ a, keeps_self (k a)) → keeps_self (bind m k).
Proof.
  intros Hm Hk s. unfold bind. specialize (Hm s).
  destruct (m s) as [[e|a] s1]; [exact Hm|].
  etransitivity; [exact Hm | apply Hk].
Qed.

Lemma keeps_finally {A} (body : M C A) (cleanup : M C unit) :
  keeps_self body → keeps_self cleanup → keeps_self (finally body cleanup).
Proof.
  intros Hb Hc s. unfold finally. specialize (Hb s).
  destruct (body s) as [r s1]. specialize (Hc s1).
  destruct (cleanup s1) as [[e|[]] s2]; etransitivity; eauto.
Qed.

Lemma keeps_with_autocast {A} device (body : M C A) :
  keeps_self body → keeps_self (with_autocast device body).
Proof.
  intros Hb. unfold with_autocast.
  repeat first [ apply keeps_bind; [|intros ?] | apply keeps_finally
               | apply keeps_emit; reflexivity | apply keeps_call | exact Hb ].
Qed.

Lemma keeps_Image_save img location : keeps_self (@Image_save C img location).
Proof.
  unfold Image_save. apply keeps_bind; [by apply keeps_emit|].
  intros _. apply keeps_file_io.
Qed.

Lemma keeps_generate loc tok verbose :
  keeps_self (@generate_image_from_prompt C loc tok verbose).
Proof.
  unfold generate_image_from_prompt, print. cbv zeta.
  repeat first
    [ apply keeps_with_autocast
    | apply keeps_Image_save
    | apply keeps_bind; [|intros ?]
    | apply keeps_getattr
    | apply keeps_call
    | apply keeps_lift
    | apply keeps_ret
    | apply keeps_emit; reflexivity
    | match goal with |- keeps_self (if ?b then _ else _) => destruct b end ].
Qed.

(** C8. A call of [generate_image_from_prompt], whether it returns or
    raises, leaves the instance as the constructor made it: prompt, model
    identifier and device hold their construction values.  The device is
    resolved once, by the constructor, and the call does not resolve it
    again. *)
Theorem generate_keeps_instance
    prompt pipe (s0 : state C) obj s0' loc tok verbose (s : state C) :
  StableDiffusionLoader prompt pipe s0 = (inr obj, s0') →
  let s' := snd (on obj (generate_image_from_prompt loc tok verbose) s) in
  self_dict s' = obj ∧
  self_dict s' !! "prompt" = Some prompt ∧
  self_dict s' !! "pretrain_pipe" = Some (default default_pretrain_pipe pipe) ∧
  self_dict s' !! "device" = Some (PyStr "cuda") ∧
  trace s0' = trace s0 ++ [EvCudaIsAvailable] ∧
  ∃ t, trace s' = trace s ++ t ∧ List.filter is_device_resolution t = [].
Proof.
  intros (P & N & -> & HN & -> & ->)%init_inv. cbv zeta.
  destruct (keeps_generate loc tok verbose
              (State (instance (PyStr P) (PyStr N) "cuda") (collab s) (fs s) (trace s)))
    as [Hself Htrace].
  unfold on. rewrite Hself, HN. cbn [self_dict trace] in *. done.
Qed.

End Frame.

(** * Runs against the stub *)

Section StubRuns.

Import Stub.

Example stub_len :
  fst (on (self_dict (stub_ready NoFault)) __len__ (stub_ready NoFault)) = inr 12.
Proof. reflexivity. Qed.

Example stub_str :
  fst (on (self_dict (stub_ready NoFault)) __str__ (stub_ready NoFault)) =
    inr "[INFO] Generating image for prompt: a red circle".
Proof. reflexivity. Qed.

Example stub_generate_file :
  fs (snd (generate_image_from_prompt None None None (stub_ready NoFault)))
    !! "prompt.jpg" = Some red_circle.
Proof. reflexivity. Qed.

Lemma construction_without_accelerator_witness :
  ∃ e, fst (StableDiffusionLoader PyNone None (boot false NoFault)) = inl e ∧
       ResourceUnavailable e ∧
       e = MemoryError "GPU need for inference".
Proof.
  apply (construction_without_accelerator collaborator PyNone None (boot false NoFault)).
  reflexivity.
Defined.

(** The statement of C2 in the specification fails on the stub: with an
    accelerator, the empty prompt is accepted, and so is the empty model
    identifier. *)
Lemma empty_strings_are_accepted :
  cuda_is_available collaborator (collab (boot true NoFault)) = true ∧
  ¬ (∃ e, fst (StableDiffusionLoader (PyStr "") None (boot true NoFault)) = inl e ∧
          InvalidArgument e) ∧
  ¬ (∃ e, fst (StableDiffusionLoader (PyStr "a red circle") (Some (PyStr ""))
                 (boot true NoFault)) = inl e ∧
          InvalidArgument e).
Proof.
  split; [reflexivity|].
  split; intros (e & He & _); rewrite init_gpu in He by reflexivity; discriminate.
Qed.

Lemma construction_invalid_argument_witness :
  ∃ e, fst (StableDiffusionLoader (PyInt 7) None (boot true NoFault)) = inl e ∧
       InvalidArgument e.
Proof.
  apply (proj2 (construction_invalid_argument collaborator (PyInt 7) None
                  (boot true NoFault) eq_refl)).
  left. reflexivity.
Defined.

Lemma construction_stores_prompt_witness :
  ∃ obj s',
    StableDiffusionLoader (PyStr "a red circle")
      (PyStr <$> Some "CompVis/stable-diffusion-v1-4") (boot true NoFault) = (inr obj, s') ∧
    obj !! "prompt" = Some (PyStr "a red circle").
Proof.
  apply (construction_stores_prompt collaborator "a red circle"
           (Some "CompVis/stable-diffusion-v1-4") (boot true NoFault)).
  - discriminate.
  - discriminate.
  - reflexivity.
Defined.

Lemma len_is_prompt_length_witness :
  ∃ P, PyStr "a red circle" = PyStr P ∧
       ∀ s1 : state collaborator, fst (on (self_dict (stub_ready NoFault)) __len__ s1) = inr (String.length P).
Proof.
  apply (len_is_prompt_length collaborator (PyStr "a red circle") None
           (boot true NoFault) (self_dict (stub_ready NoFault)) (stub_ready NoFault)).
  vm_compute. reflexivity.
Defined.

Lemma str_is_prefixed_prompt_witness :
  ∃ P, PyStr "a red circle" = PyStr P ∧
       ∀ s1 : state collaborator, fst (on (self_dict (stub_ready NoFault)) __str__ s1) =
             inr ("[INFO] Generating image for prompt: " +:+ P).
Proof.
  apply (str_is_prefixed_prompt collaborator (PyStr "a red circle") None
           (boot true NoFault) (self_dict (stub_ready NoFault)) (stub_ready NoFault)).
  vm_compute. reflexivity.
Defined.

Lemma generate_steps_in_order_witness :
  ∃ name device prompt c' fs',
    collaboration collaborator (stub_ready NoFault) false "prompt.jpg"
      name device prompt red_circle c' fs' ∧
    trace (snd (generate_image_from_prompt None None (Some true) (stub_ready NoFault))) =
      trace (stub_ready NoFault) ++
       [ EvFromPretrained name "fp16" float16 false;
         EvTo device;
         EvAutocastEnter device;
         EvCall prompt;
         EvAutocastExit device;
         EvSave "prompt.jpg" ] ++
       [EvPrint "[INFO] saving image to prompt.jpg"] ∧
    collab (snd (generate_image_from_prompt None None (Some true) (stub_ready NoFault)))
      = c' ∧
    fs (snd (generate_image_from_prompt None None (Some true) (stub_ready NoFault)))
      = fs' ∧
    default "prompt.jpg" (@None string) = "prompt.jpg".
Proof.
  apply (generate_steps_in_order collaborator None None (Some true)
           (stub_ready NoFault) red_circle
           (snd (generate_image_from_prompt None None (Some true) (stub_ready NoFault)))).
  vm_compute. reflexivity.
Defined.

Lemma generate_returns_first_image_witness :
  ∃ s' t,
    generate_image_from_prompt (Some "out.jpg") None None (stub_ready NoFault) =
      (inr red_circle, s') ∧
    fs s' !! "out.jpg" = Some red_circle ∧
    fs s' = <["out.jpg" := red_circle]> (fs (stub_ready NoFault)) ∧
    trace s' = trace (stub_ready NoFault) ++ t ∧
    List.filter is_save t = [EvSave "out.jpg"].
Proof.
  eapply (generate_returns_first_image collaborator (Some "out.jpg") None None
            (stub_ready NoFault) default_pretrain_pipe (PyStr "cuda")
            (PyStr "a red circle")); reflexivity.
Defined.

Lemma collaborator_failure_propagates_witness :
  ∃ s' t,
    generate_image_from_prompt None None None (stub_ready AtInvoke) =
      (inl (boom "inference failed"), s') ∧
    fs s' = fs (stub_ready AtInvoke) ∧
    trace s' = trace (stub_ready AtInvoke) ++ t ∧
    List.filter is_save t = [] ∧
    t `prefix_of` generation_steps default_pretrain_pipe false (PyStr "cuda")
                    (PyStr "a red circle") "prompt.jpg" false.
Proof.
  apply (collaborator_failure_propagates collaborator None None None
           (stub_ready AtInvoke) default_pretrain_pipe (PyStr "cuda")
           (PyStr "a red circle") (boom "inference failed")).
  - reflexivity.
  - reflexivity.
  - reflexivity.
  - eapply RaisesAtInvocation; reflexivity.
Defined.

Lemma generate_keeps_instance_witness :
  self_dict after_failed_call = self_dict (stub_ready NoFault) ∧
  self_dict after_failed_call !! "prompt" = Some (PyStr "a red circle") ∧
  self_dict after_failed_call !! "pretrain_pipe" = Some default_pretrain_pipe ∧
  self_dict after_failed_call !! "device" = Some (PyStr "cuda") ∧
  trace (stub_ready NoFault) = trace (boot true NoFault) ++ [EvCudaIsAvailable] ∧
  ∃ t, trace after_failed_call = trace (stub_ready AtBind) ++ t ∧
       List.filter is_device_resolution t = [].
Proof.
  apply (generate_keeps_instance collaborator (PyStr "a red circle") None
           (boot true NoFault) (self_dict (stub_ready NoFault)) (stub_ready NoFault)
           None None None (stub_ready AtBind)).
  vm_compute. reflexivity.
Defined.

End StubRuns.


(** * Further properties of the class *)

Section MoreConstruction.

Variable C : Collaborator.
Implicit Types (s : state C) (prompt : pyval) (pipe : option pyval).

(** X1. The constructor returns an instance exactly when an accelerator
    is there and both the prompt and the model identifier are strings. *)
Theorem construction_succeeds_iff prompt pipe s :
  (∃ obj s', StableDiffusionLoader prompt pipe s = (inr obj, s'))
  ↔ cuda_is_available C (collab s) = true ∧
    isinstance_str prompt = true ∧
    isinstance_str (default default_pretrain_pipe pipe) = true.
Proof.
  destruct (cuda_is_available C (collab s)) eqn:Hdev.
  - rewrite (init_gpu _ _ _ _ Hdev). cbv zeta.
    destruct (isinstance_str prompt),
      (isinstance_str (default default_pretrain_pipe pipe));
      (split; [intros (obj & s' & Heq) | intros (H1 & H2 & H3)]);
      first [discriminate | done | by eexists _, _].
  - rewrite (init_cpu _ _ _ _ Hdev). split.
    + intros (obj & s' & [=]).
    + intros ([=] & _).
Qed.

(** X2. With an accelerator, a prompt that is not a string is what the
    constructor reports, with the message of the prompt field, whatever
    the model identifier is: the prompt is asserted first. *)
Theorem construction_asserts_prompt_first prompt pipe s :
  cuda_is_available C (collab s) = true →
  isinstance_str prompt = false →
  fst (StableDiffusionLoader prompt pipe s) =
    inl (AssertionError "Please enter a string into the prompt field").
Proof.
  intros Hdev Hp. rewrite (init_gpu _ _ _ _ Hdev). cbv zeta. by rewrite Hp.
Qed.

(** X3. With an accelerator and a string prompt, a model identifier that
    is not a string is reported with the message of the pipeline field. *)
Theorem construction_asserts_pipeline prompt pipe s :
  cuda_is_available C (collab s) = true →
  isinstance_str prompt = true →
  isinstance_str (default default_pretrain_pipe pipe) = false →
  fst (StableDiffusionLoader prompt pipe s) =
    inl (AssertionError
           "Please use value such as `CompVis/stable-diffusion-v1-4` for pretrained pipeline").
Proof.
  intros Hdev Hp Hpp. rewrite (init_gpu _ _ _ _ Hdev). cbv zeta. by rewrite Hp, Hpp.
Qed.

(** X4. Whether it returns or raises, the constructor makes one external
    call, the query for the accelerator: it leaves the collaborators'
    state and every file as they were. *)
Theorem construction_only_queries_device prompt pipe s :
  collab (snd (StableDiffusionLoader prompt pipe s)) = collab s ∧
  fs (snd (StableDiffusionLoader prompt pipe s)) = fs s ∧
  trace (snd (StableDiffusionLoader prompt pipe s)) = trace s ++ [EvCudaIsAvailable].
Proof.
  destruct (cuda_is_available C (collab s)) eqn:Hdev.
  - by rewrite (init_gpu _ _ _ _ Hdev).
  - by rewrite (init_cpu _ _ _ _ Hdev).
Qed.

(** X5. On a constructed instance [len] and [str] both return, make no
    external call and change nothing, and the rendering is 36 characters
    longer than the instance. *)
Theorem str_is_36_longer_than_len prompt pipe s0 obj s0' s :
  StableDiffusionLoader prompt pipe s0 = (inr obj, s0') →
  ∃ n r,
    on obj __len__ s = (inr n, State obj (collab s) (fs s) (trace s)) ∧
    on obj __str__ s = (inr r, State obj (collab s) (fs s) (trace s)) ∧
    String.length r = 36 + n.
Proof.
  intros (P & N & -> & _ & -> & _)%init_inv.
  exists (String.length P), ("[INFO] Generating image for prompt: " +:+ P).
  rewrite len_instance, str_instance. done.
Qed.

End MoreConstruction.

(** Case analysis on the innermost scrutinee the goal is stuck on. *)
Ltac innermost_case x :=
  lazymatch x with
  | context [match ?y with _ => _ end] => innermost_case y
  | _ => destruct x eqn:?
  end.

Ltac stuck_case :=
  match goal with
  | |- context [match ?x with _ => _ end] => innermost_case x
  end.

Section MoreGeneration.

Variable C : Collaborator.
Implicit Types (s : state C) (loc : option string) (tok verbose : option bool).

(** Whatever happens, the external calls of a generation are an initial
    part of [generation_steps]. *)
Lemma generate_prefix loc tok verbose s name device prompt :
  self_dict s !! "pretrain_pipe" = Some name →
  self_dict s !! "device" = Some device →
  self_dict s !! "prompt" = Some prompt →
  ∃ t,
    trace (snd (generate_image_from_prompt loc tok verbose s)) = trace s ++ t ∧
    t `prefix_of` generation_steps name (default false tok) device prompt
                    (default "prompt.jpg" loc) (default false verbose) ∧
    (∀ img, fst (generate_image_from_prompt loc tok verbose s) = inr img →
            t = generation_steps name (default false tok) device prompt
                  (default "prompt.jpg" loc) (default false verbose)).
Proof.
  intros Hn Hd Hp. unfold_loader. unfold generation_steps.
  rewrite Hn.
  repeat (cbn [self_dict collab fs trace fst snd]; rewrite ?Hd, ?Hp;
          cbn [self_dict collab fs trace fst snd]; stuck_case; simplify_eq).
  all: cbn [self_dict collab fs trace fst snd].
  all: eexists; (split; [rewrite <- ?app_assoc; reflexivity|]).
  all: split; [eexists; reflexivity | intros ?; try discriminate; reflexivity].
Qed.

(** X6. Every call, whatever its outcome, makes its external calls in one
    fixed order and each at most once: they are an initial part of
    resolve, bind, enter the context, invoke, leave the context, save,
    print the note; a call that returns an image has made them all. *)
Theorem generate_calls_in_fixed_order loc tok verbose s name device prompt :
  self_dict s !! "pretrain_pipe" = Some name →
  self_dict s !! "device" = Some device →
  self_dict s !! "prompt" = Some prompt →
  ∃ t,
    trace (snd (generate_image_from_prompt loc tok verbose s)) = trace s ++ t ∧
    t `prefix_of`
      [ EvFromPretrained name "fp16" float16 (default false tok);
        EvTo device;
        EvAutocastEnter device;
        EvCall prompt;
        EvAutocastExit device;
        EvSave (default "prompt.jpg" loc) ] ++
      (if default false verbose
       then [EvPrint ("[INFO] saving image to " +:+ default "prompt.jpg" loc)]
       else []) ∧
    (∀ img, fst (generate_image_from_prompt loc tok verbose s) = inr img →
            length t = if default false verbose then 7 else 6).
Proof.
  intros Hn Hd Hp.
  destruct (generate_prefix loc tok verbose s name device prompt Hn Hd Hp)
    as (t & Ht & Hpre & Hfull).
  exists t. split; [done|]. split; [done|].
  intros img ->%Hfull. unfold generation_steps.
  by destruct (default false verbose).
Qed.

(** X7. When the save raises [e], the call raises [e] after the whole
    model run: every collaborator call has been made, the precision
    context has been left, and the note is not printed even for a verbose
    call. *)
Theorem save_failure_propagates
    loc tok verbose s name device prompt p c1 p' c2 c3 out c4 batch img e :
  self_dict s !! "pretrain_pipe" = Some name →
  self_dict s !! "device" = Some device →
  self_dict s !! "prompt" = Some prompt →
  from_pretrained C name "fp16" float16 (default false tok) (collab s) = (inr p, c1) →
  pipe_to C p device c1 = (inr p', c2) →
  autocast_enter C device c2 = (inr tt, c3) →
  pipe_call C p' prompt c3 = (inr out, c4) →
  out !! 0 = Some batch →
  batch !! 0 = Some img →
  image_save C img (default "prompt.jpg" loc) (fs s) = inl e →
  fst (generate_image_from_prompt loc tok verbose s) = inl e ∧
  collab (snd (generate_image_from_prompt loc tok verbose s)) = autocast_exit C device c4 ∧
  trace (snd (generate_image_from_prompt loc tok verbose s)) =
    trace s ++
    [ EvFromPretrained name "fp16" float16 (default false tok);
      EvTo device;
      EvAutocastEnter device;
      EvCall prompt;
      EvAutocastExit device;
      EvSave (default "prompt.jpg" loc) ].
Proof.
  intros Hn Hd Hp Hres Hto Hin Hcall Hb Hi Hsave.
  unfold_loader.
  repeat (progress (rewrite ?Hn, ?Hd, ?Hp, ?Hres, ?Hto, ?Hin, ?Hcall, ?Hb, ?Hi, ?Hsave;
                    cbn [self_dict collab fs trace fst snd])).
  rewrite <- ?app_assoc. done.
Qed.

(** X8. When the pipeline returns no batch, or a first batch without an
    image, the call raises [IndexError] once the precision context has
    been left, and the save is never reached. *)
Theorem empty_output_raises_index_error
    loc tok verbose s name device prompt p c1 p' c2 c3 out c4 :
  self_dict s !! "pretrain_pipe" = Some name →
  self_dict s !! "device" = Some device →
  self_dict s !! "prompt" = Some prompt →
  from_pretrained C name "fp16" float16 (default false tok) (collab s) = (inr p, c1) →
  pipe_to C p device c1 = (inr p', c2) →
  autocast_enter C device c2 = (inr tt, c3) →
  pipe_call C p' prompt c3 = (inr out, c4) →
  (out !! 0) ≫= (λ batch, batch !! 0) = None →
  generate_image_from_prompt loc tok verbose s =
    (inl (IndexError "list index out of range"),
     State (self_dict s) (autocast_exit C device c4) (fs s)
       (trace s ++
        [ EvFromPretrained name "fp16" float16 (default false tok);
          EvTo device;
          EvAutocastEnter device;
          EvCall prompt;
          EvAutocastExit device ])).
Proof.
  intros Hn Hd Hp Hres Hto Hin Hcall Hout.
  unfold_loader.
  repeat (progress (rewrite ?Hn, ?Hd, ?Hp, ?Hres, ?Hto, ?Hin, ?Hcall;
                    cbn [self_dict collab fs trace fst snd])).
  destruct (out !! 0) as [batch|] eqn:Hb; cbn in Hout;
    [rewrite Hout|]; cbn [self_dict collab fs trace fst snd];
    rewrite <- ?app_assoc; reflexivity.
Qed.

(** X9. Once the precision context has been entered it is left, whatever
    the invocation, the selection of the image and the save do: the exit
    is among the calls made, and the collaborators end in the state the
    exit leaves after the invocation. *)
Theorem autocast_context_is_always_left
    loc tok verbose s name device prompt p c1 p' c2 c3 :
  self_dict s !! "pretrain_pipe" = Some name →
  self_dict s !! "device" = Some device →
  self_dict s !! "prompt" = Some prompt →
  from_pretrained C name "fp16" float16 (default false tok) (collab s) = (inr p, c1) →
  pipe_to C p device c1 = (inr p', c2) →
  autocast_enter C device c2 = (inr tt, c3) →
  ∃ t,
    trace (snd (generate_image_from_prompt loc tok verbose s)) = trace s ++ t ∧
    EvAutocastExit device ∈ t ∧
    collab (snd (generate_image_from_prompt loc tok verbose s)) =
      autocast_exit C device (snd (pipe_call C p' prompt c3)).
Proof.
  intros Hn Hd Hp Hres Hto Hin.
  unfold_loader.
  repeat (progress (rewrite ?Hn, ?Hd, ?Hp, ?Hres, ?Hto, ?Hin;
                    cbn [self_dict collab fs trace fst snd])).
  repeat (cbn [self_dict collab fs trace fst snd]; stuck_case; simplify_eq).
  all: cbn [self_dict collab fs trace fst snd].
  all: eexists; (split; [rewrite <- ?app_assoc; reflexivity|]).
  all: split; [set_solver | reflexivity].
Qed.


End MoreGeneration.

(** * The page script *)

Ltac unfold_shell :=
  unfold main, handle_prompt, text_prompt, page_layout, st_with, sh_bind, sh_lift,
    sh_ret, st, read, open_image, in_world;
  cbn [world ui shown fst snd].

Section ScriptLayout.

Variable C : Collaborator.
Variable F : Frontend C.
Implicit Types (pg : page C F) (sel : pyval).

(** X11. Laying the page out and reading the widgets never touches the
    world of the class: whatever streamlit answers or raises, no model
    call is made, nothing is printed and no file changes before the
    prompt is handled. *)
Theorem layout_leaves_world pg sel :
  world (snd (page_layout pg)) = world pg ∧
  world (snd (text_prompt sel pg)) = world pg.
Proof.
  split; unfold_shell;
    repeat (cbn [world ui shown fst snd]; stuck_case; simplify_eq);
    reflexivity.
Qed.

(** X12. When the selectbox holds anything but the string [None], the
    prompt is the selection: what was typed into the text field is
    discarded. *)
Theorem selectbox_overrides_text sel pg p pg' :
  text_prompt sel pg = (inr p, pg') →
  py_eq sel (PyStr "None") = false →
  p = sel.
Proof.
  unfold_shell. intros Hrun Hsel.
  destruct (streamlit F _ (ui pg)) as [[e|typed] u]; simplify_eq.
  by rewrite Hsel.
Qed.

(** X13. When the selectbox holds the string [None], the prompt is what
    the text field returned, unless that is Python's [None], in which
    case it is the string [None] of the selectbox. *)
Theorem text_is_used_under_None pg p pg' :
  text_prompt (PyStr "None") pg = (inr p, pg') →
  ∃ typed,
    fst (streamlit F (st_text_input "Input the prompt desired") (ui pg)) = inr typed ∧
    p = if is_None typed then PyStr "None" else typed.
Proof.
  unfold_shell. intros Hrun.
  destruct (streamlit F _ (ui pg)) as [[e|typed] u]; simplify_eq.
  by exists typed.
Qed.

(** X14. The gate of the handler: for the empty string it does nothing
    at all and returns; for a value without a length it raises the
    [TypeError] of [len], also with nothing done. *)
Theorem handle_prompt_gate prompt pg :
  (∀ n, py_len prompt = inr n → n = 0) →
  handle_prompt prompt pg =
    (match py_len prompt with inl e => inl e | inr _ => inr tt end, pg).
Proof.
  intros Hlen. unfold_shell.
  destruct (py_len prompt) as [e|n]; [done|].
  by rewrite (Hlen n eq_refl).
Qed.

End ScriptLayout.

Section ScriptRun.

Variable C : Collaborator.
Variable F : Frontend C.
Implicit Types (pg : page C F).

Lemma construct_world prompt pipe (s : state C) :
  collab (snd (StableDiffusionLoader prompt pipe s)) = collab s ∧
  fs (snd (StableDiffusionLoader prompt pipe s)) = fs s ∧
  trace (snd (StableDiffusionLoader prompt pipe s)) = trace s ++ [EvCudaIsAvailable].
Proof.
  destruct (cuda_is_available C (collab s)) eqn:Hdev.
  - by rewrite (init_gpu _ _ _ _ Hdev).
  - by rewrite (init_cpu _ _ _ _ Hdev).
Qed.

Ltac log_cases H :=
  repeat (first [ apply elem_of_app in H as [H|H]
                | apply elem_of_cons in H as [H|H]
                | apply elem_of_nil in H; destruct H ]);
  simplify_eq.

Ltac close_trace Htg :=
  cbn [world trace self_dict collab fs];
  first [ symmetry; apply app_nil_r
        | rewrite ?Htg; cbn [trace]; rewrite <- ?app_assoc; reflexivity ].

Ltac close_log :=
  cbn [shown]; first [ symmetry; apply app_nil_r | rewrite <- ?app_assoc; reflexivity ].

Ltac solve_elem :=
  unfold generation_steps; cbn [app];
  solve [repeat first [apply list_elem_of_here | apply list_elem_of_further]].

Ltac close_run Htg Hpre Hopen :=
  eexists _, _; (split; [close_trace Htg|]); (split; [close_log|]);
  (split; [cbn [app];
           first [ apply prefix_nil | reflexivity
                 | do 2 apply prefix_cons; exact Hpre | by eexists ]|]);
  (split; [intros ? ? Hin ?; log_cases Hin; try done; solve_elem|]);
  (split; [intros ? ? Hin; log_cases Hin; try done; exact Hopen|]);
  (split; [first [by intros [=] | intros _; eexists _, _; solve_elem]|]);
  by intros [=].

Lemma handle_prompt_run P pg :
  P ≠ "" →
  ∃ t log,
    trace (world (snd (handle_prompt (PyStr P) pg))) = trace (world pg) ++ t ∧
    shown (snd (handle_prompt (PyStr P) pg)) = shown pg ++ log ∧
    t `prefix_of`
      EvPrint P :: EvCudaIsAvailable ::
      generation_steps default_pretrain_pipe false (PyStr "cuda") (PyStr P)
        "prompt.jpg" false ∧
    (∀ c r, (c, r) ∈ log → reports_generation c = true → EvSave "prompt.jpg" ∈ t) ∧
    (∀ img r, (st_image_object img, r) ∈ log →
       Image_open F "prompt.jpg" (fs (world (snd (handle_prompt (PyStr P) pg)))) = inr img) ∧
    (fst (handle_prompt (PyStr P) pg) = inr tt →
       ∃ img v, (st_image_object img, inr v) ∈ log) ∧
    (cuda_is_available C (collab (world pg)) = false →
       t `prefix_of` [EvPrint P; EvCudaIsAvailable] ∧
       fs (world (snd (handle_prompt (PyStr P) pg))) = fs (world pg) ∧
       collab (world (snd (handle_prompt (PyStr P) pg))) = collab (world pg) ∧
       (∀ c r, (c, r) ∈ log → reports_generation c = false) ∧
       ∃ e, fst (handle_prompt (PyStr P) pg) = inl e).
Proof.
  intros HP. unfold_shell. cbn [py_len].
  rewrite bool_decide_eq_true_2 by (destruct P; [done | cbn; lia]).
  destruct (streamlit F (st_markdown _ false) (ui pg)) as [[e|v] u1] eqn:Hmd;
    cbn [world ui shown fst snd].
  { eexists _, _. split; [close_trace I|]. split; [close_log|].
    split; [apply prefix_nil|].
    split; [intros c r Hin; log_cases Hin; done|].
    split; [intros img r Hin; log_cases Hin|].
    split; [done|].
    intros Hdev. split; [apply prefix_nil|]. split; [done|]. split; [done|].
    split; [intros c r Hin; log_cases Hin; done | by eexists]. }
  unfold print, emit. cbn [world ui shown fst snd self_dict collab fs trace py_format].
  destruct (streamlit F (st_spinner_enter _) u1) as [[e|v2] u2] eqn:Hsp;
    cbn [world ui shown fst snd].
  { eexists _, _. split; [close_trace I|]. split; [close_log|].
    split; [by eexists|].
    split; [intros c r Hin; log_cases Hin; done|].
    split; [intros img r Hin; log_cases Hin|].
    split; [done|].
    intros Hdev. split; [by eexists|]. split; [done|]. split; [done|].
    split; [intros c r Hin; log_cases Hin; done | by eexists]. }
  destruct (cuda_is_available C (collab (world pg))) eqn:Hdev.
  2: { rewrite (init_cpu C (PyStr P) None (State _ _ _ _) Hdev).
       cbn [world ui shown fst snd self_dict collab fs trace].
       destruct (streamlit F st_spinner_exit u2) as [[e|v3] u3] eqn:Hex;
         cbn [world ui shown fst snd self_dict collab fs trace].
       all: eexists _, _; (split; [close_trace I|]); (split; [close_log|]).
       all: split; [by eexists|].
       all: split; [intros c r Hin; log_cases Hin; done|].
       all: split; [intros img r Hin; log_cases Hin|].
       all: split; [done|].
       all: intros _; split; [by eexists|]; split; [done|]; split; [done|].
       all: split; [intros c r Hin; log_cases Hin; done | by eexists]. }
  rewrite (init_gpu C (PyStr P) None (State _ _ _ _) Hdev).
  cbv zeta. cbn [world ui shown fst snd self_dict collab fs trace isinstance_str default
                 from_option default_pretrain_pipe]. unfold on.
  cbn [world ui shown fst snd self_dict collab fs trace].
  match goal with
  | |- context [generate_image_from_prompt ?a ?b ?c ?s] =>
      destruct (generate_prefix C a b c s default_pretrain_pipe (PyStr "cuda") (PyStr P))
        as (tg & Htg & Hpre & Hfull); [reflexivity..|];
      destruct (generate_image_from_prompt a b c s) as [[e|img] wg] eqn:Hg
  end; cbn [fst snd trace] in Htg, Hfull; cbn [world ui shown fst snd].
  { destruct (streamlit F st_spinner_exit u2) as [[e'|v3] u3] eqn:Hex;
      cbn [world ui shown fst snd]; close_run Htg Hpre I. }
  pose proof (Hfull img eq_refl) as ->. clear Hfull.
  destruct (streamlit F (st_success _) u2) as [[e|v3] u3] eqn:Hsu;
    cbn [world ui shown fst snd].
  { destruct (streamlit F st_spinner_exit u3) as [[e'|v4] u4] eqn:Hex;
      cbn [world ui shown fst snd]; close_run Htg Hpre I. }
  destruct (streamlit F st_spinner_exit u3) as [[e'|v4] u4] eqn:Hex;
    cbn [world ui shown fst snd]; [close_run Htg Hpre I|].
  destruct (Image_open F SAVE_LOCATION (fs wg)) as [e|im] eqn:Hopen;
    cbn [world ui shown fst snd]; [close_run Htg Hpre I|].
  destruct (streamlit F (st_image_object im) u4) as [[e|v5] u5] eqn:Him;
    cbn [world ui shown fst snd]; close_run Htg Hpre Hopen.
Qed.

Ltac close_quiet_log :=
  eexists; (split; [close_log|]);
  intros ? ? Hin; log_cases Hin; done.

Lemma layout_run pg :
  world (snd (page_layout pg)) = world pg ∧
  ∃ log, shown (snd (page_layout pg)) = shown pg ++ log ∧
         ∀ c r, (c, r) ∈ log → reports_generation c = false.
Proof.
  split.
  - unfold_shell.
    repeat (cbn [world ui shown fst snd]; stuck_case; simplify_eq); reflexivity.
  - unfold_shell.
    repeat (cbn [world ui shown fst snd]; stuck_case; simplify_eq);
      cbn [world ui shown fst snd]; close_quiet_log.
Qed.

Lemma text_prompt_run sel pg :
  world (snd (text_prompt sel pg)) = world pg ∧
  ∃ log, shown (snd (text_prompt sel pg)) = shown pg ++ log ∧
         ∀ c r, (c, r) ∈ log → reports_generation c = false.
Proof.
  split.
  - unfold_shell.
    repeat (cbn [world ui shown fst snd]; stuck_case; simplify_eq); reflexivity.
  - unfold_shell.
    repeat (cbn [world ui shown fst snd]; stuck_case; simplify_eq);
      cbn [world ui shown fst snd]; close_quiet_log.
Qed.

(** A prompt without a positive length is not handled at all. *)
Lemma handle_prompt_skips prompt pg :
  (∀ n, py_len prompt = inr n → n = 0) →
  handle_prompt prompt pg =
    (match py_len prompt with inl e => inl e | inr _ => inr tt end, pg).
Proof.
  intros Hlen. unfold_shell.
  destruct (py_len prompt) as [e|n]; [done|].
  by rewrite (Hlen n eq_refl).
Qed.


(** What a run of the script does to the world and shows, whatever
    streamlit answers. *)
Lemma main_run pg :
  ∃ t log,
    trace (world (snd (main pg))) = trace (world pg) ++ t ∧
    shown (snd (main pg)) = shown pg ++ log ∧
    (t = [] ∨
     ∃ P, P ≠ "" ∧
          t `prefix_of`
            EvPrint P :: EvCudaIsAvailable ::
            generation_steps default_pretrain_pipe false (PyStr "cuda") (PyStr P)
              "prompt.jpg" false) ∧
    (∀ c r, (c, r) ∈ log → reports_generation c = true → EvSave "prompt.jpg" ∈ t) ∧
    (∀ img r, (st_image_object img, r) ∈ log →
       Image_open F "prompt.jpg" (fs (world (snd (main pg)))) = inr img) ∧
    (fst (main pg) = inr tt →
       t = [] ∨ ∃ img v, (st_image_object img, inr v) ∈ log) ∧
    (cuda_is_available C (collab (world pg)) = false →
       fs (world (snd (main pg))) = fs (world pg) ∧
       collab (world (snd (main pg))) = collab (world pg) ∧
       (∀ c r, (c, r) ∈ log → reports_generation c = false) ∧
       (t ≠ [] → ∃ e, fst (main pg) = inl e)).
Proof.
  pose proof (layout_run pg) as [Hw1 (log1 & Hl1 & Hq1)].
  unfold main, sh_bind. revert Hw1 Hl1.
  destruct (page_layout pg) as [[e|sel] pg1]; cbn [fst snd]; intros Hw1 Hl1.
  { exists [], log1. rewrite Hw1, app_nil_r.
    repeat split; auto; try done.
    - intros c r Hin Hrep. by rewrite (Hq1 c r Hin) in Hrep.
    - intros img r Hin. by specialize (Hq1 _ _ Hin). }
  pose proof (text_prompt_run sel pg1) as [Hw2 (log2 & Hl2 & Hq2)].
  revert Hw2 Hl2.
  destruct (text_prompt sel pg1) as [[e|p] pg2]; cbn [fst snd]; intros Hw2 Hl2.
  all: assert (∀ c r, (c, r) ∈ log1 ++ log2 → reports_generation c = false) as Hq
    by (intros c r [Hin|Hin]%elem_of_app; eauto).
  { exists [], (log1 ++ log2). rewrite Hw2, Hw1, Hl2, Hl1, app_nil_r, <- app_assoc.
    repeat split; auto; try done.
    - intros c r Hin Hrep. by rewrite (Hq c r Hin) in Hrep.
    - intros img r Hin. by specialize (Hq _ _ Hin). }
  assert ((∀ n, py_len p = inr n → n = 0) ∨ ∃ P, p = PyStr P ∧ P ≠ "") as [Hlen|(P & -> & HP)].
  { destruct p as [| | |P]; [by left..|]. destruct P; [left | right; by eexists].
    by intros n [= <-]. }
  { rewrite (handle_prompt_skips _ _ Hlen). cbn [fst snd].
    exists [], (log1 ++ log2). rewrite Hw2, Hw1, Hl2, Hl1, app_nil_r, <- app_assoc.
    repeat split; auto; try done.
    - intros c r Hin Hrep. by rewrite (Hq c r Hin) in Hrep.
    - intros img r Hin. by specialize (Hq _ _ Hin). }
  destruct (handle_prompt_run P pg2 HP)
    as (t & log3 & Ht & Hl3 & Hpre & Hsave & Himg & Hret & Hcpu).
  exists t, (log1 ++ log2 ++ log3).
  rewrite Ht, Hl3, Hw2, Hw1, Hl2, Hl1, <- !app_assoc.
  split; [done|]. split; [done|].
  split; [right; by exists P|].
  split.
  { intros c r [Hin|Hin]%elem_of_app Hrep; [|apply elem_of_app in Hin as [Hin|Hin]].
    - by rewrite (Hq1 c r Hin) in Hrep.
    - by rewrite (Hq2 c r Hin) in Hrep.
    - eauto. }
  split.
  { intros img r [Hin|Hin]%elem_of_app; [|apply elem_of_app in Hin as [Hin|Hin]].
    - by specialize (Hq1 _ _ Hin).
    - by specialize (Hq2 _ _ Hin).
    - eauto. }
  split.
  { intros (img & v & Hin)%Hret. right. exists img, v.
    rewrite !elem_of_app. auto. }
  rewrite Hw2, Hw1 in Hcpu. intros (Hp2 & Hfs & Hco & Hq3 & He)%Hcpu.
  rewrite Hfs, Hco.
  split; [done|]. split; [done|]. split; [|done].
  intros c r [Hin|Hin]%elem_of_app; [|apply elem_of_app in Hin as [Hin|Hin]]; eauto.
Qed.


(** X15. Whatever streamlit answers, a run of the script either makes no
    call of the class at all, or works for one non-empty prompt [P]: it
    prints [P], queries the accelerator and goes through a quiet generation
    with the default model, no auth token, the device [cuda] and the save
    location [prompt.jpg], stopping where a step raises.  In particular
    the pipeline is never invoked on an empty prompt. *)
Theorem main_generates_for_nonempty_prompt_only pg :
  ∃ t,
    trace (world (snd (main pg))) = trace (world pg) ++ t ∧
    (t = [] ∨
     ∃ P, P ≠ "" ∧
          t `prefix_of`
            [ EvPrint P;
              EvCudaIsAvailable;
              EvFromPretrained (PyStr "CompVis/stable-diffusion-v1-4") "fp16" float16 false;
              EvTo (PyStr "cuda");
              EvAutocastEnter (PyStr "cuda");
              EvCall (PyStr P);
              EvAutocastExit (PyStr "cuda");
              EvSave "prompt.jpg" ]).
Proof.
  destruct (main_run pg) as (t & log & Ht & _ & Hpre & _).
  exists t. split; [done|]. exact Hpre.
Qed.


(** X17. An image the page shows is the one [Image.open] reads at
    [prompt.jpg] from the files as the run leaves them, that is, after the
    save of that run. *)
Theorem shown_image_is_read_from_save_location pg :
  ∃ log,
    shown (snd (main pg)) = shown pg ++ log ∧
    ∀ img r, (st_image_object img, r) ∈ log →
      Image_open F "prompt.jpg" (fs (world (snd (main pg)))) = inr img.
Proof.
  destruct (main_run pg) as (t & log & _ & Hl & _ & _ & Himg & _).
  by exists log.
Qed.

(** X18. A run that ends without an exception has either made no call of
    the class, or has shown the generated image. *)
Theorem normal_return_shows_image pg :
  fst (main pg) = inr tt →
  ∃ t log,
    trace (world (snd (main pg))) = trace (world pg) ++ t ∧
    shown (snd (main pg)) = shown pg ++ log ∧
    (t = [] ∨ ∃ img v, (st_image_object img, inr v) ∈ log).
Proof.
  intros Hret.
  destruct (main_run pg) as (t & log & Ht & Hl & _ & _ & _ & Hshow & _).
  exists t, log. auto.
Qed.

(** X19. Without an accelerator a run never reports a generated image
    and leaves the files and the collaborators' state as they were; if it
    got as far as calling the class at all, it ends in an exception. *)
Theorem main_without_accelerator pg :
  cuda_is_available C (collab (world pg)) = false →
  ∃ t log,
    trace (world (snd (main pg))) = trace (world pg) ++ t ∧
    shown (snd (main pg)) = shown pg ++ log ∧
    fs (world (snd (main pg))) = fs (world pg) ∧
    collab (world (snd (main pg))) = collab (world pg) ∧
    (∀ c r, (c, r) ∈ log → reports_generation c = false) ∧
    (t ≠ [] → ∃ e, fst (main pg) = inl e).
Proof.
  intros Hdev.
  destruct (main_run pg) as (t & log & Ht & Hl & _ & _ & _ & _ & Hcpu).
  destruct (Hcpu Hdev) as (Hfs & Hco & Hq & He).
  by exists t, log.
Qed.

End ScriptRun.

(** * Further runs against the stubs *)

Section MoreRuns.

Import Stub.

Lemma construction_asserts_prompt_first_witness :
  fst (StableDiffusionLoader (PyInt 7) (Some (PyInt 3)) (boot true NoFault)) =
    inl (AssertionError "Please enter a string into the prompt field").
Proof.
  apply (construction_asserts_prompt_first collaborator (PyInt 7) (Some (PyInt 3))
           (boot true NoFault)); reflexivity.
Defined.

Lemma construction_asserts_pipeline_witness :
  fst (StableDiffusionLoader (PyStr "a red circle") (Some PyNone) (boot true NoFault)) =
    inl (AssertionError
           "Please use value such as `CompVis/stable-diffusion-v1-4` for pretrained pipeline").
Proof.
  apply (construction_asserts_pipeline collaborator (PyStr "a red circle") (Some PyNone)
           (boot true NoFault)); reflexivity.
Defined.

Lemma str_is_36_longer_than_len_witness :
  ∃ n r,
    on (self_dict (stub_ready NoFault)) __len__ (stub_ready AtBind) =
      (inr n, State (self_dict (stub_ready NoFault)) (collab (stub_ready AtBind))
                (fs (stub_ready AtBind)) (trace (stub_ready AtBind))) ∧
    on (self_dict (stub_ready NoFault)) __str__ (stub_ready AtBind) =
      (inr r, State (self_dict (stub_ready NoFault)) (collab (stub_ready AtBind))
                (fs (stub_ready AtBind)) (trace (stub_ready AtBind))) ∧
    String.length r = 36 + n.
Proof.
  apply (str_is_36_longer_than_len collaborator (PyStr "a red circle") None
           (boot true NoFault) (self_dict (stub_ready NoFault)) (stub_ready NoFault)
           (stub_ready AtBind)).
  vm_compute. reflexivity.
Defined.

Lemma generate_calls_in_fixed_order_witness :
  ∃ t,
    trace (snd (generate_image_from_prompt None None (Some true) (stub_ready AtInvoke))) =
      trace (stub_ready AtInvoke) ++ t ∧
    t `prefix_of`
      [ EvFromPretrained default_pretrain_pipe "fp16" float16 false;
        EvTo (PyStr "cuda");
        EvAutocastEnter (PyStr "cuda");
        EvCall (PyStr "a red circle");
        EvAutocastExit (PyStr "cuda");
        EvSave "prompt.jpg" ] ++
      [EvPrint "[INFO] saving image to prompt.jpg"] ∧
    (∀ img, fst (generate_image_from_prompt None None (Some true) (stub_ready AtInvoke))
              = inr img →
            length t = 7).
Proof.
  apply (generate_calls_in_fixed_order collaborator None None (Some true)
           (stub_ready AtInvoke) default_pretrain_pipe (PyStr "cuda")
           (PyStr "a red circle")); reflexivity.
Defined.

Lemma save_failure_propagates_witness :
  fst (generate_image_from_prompt (Some "") None (Some true) (stub_ready NoFault)) =
    inl (Raised "FileNotFoundError" "No such file or directory") ∧
  collab (snd (generate_image_from_prompt (Some "") None (Some true) (stub_ready NoFault))) =
    Mk true NoFault 4 ∧
  trace (snd (generate_image_from_prompt (Some "") None (Some true) (stub_ready NoFault))) =
    trace (stub_ready NoFault) ++
    [ EvFromPretrained default_pretrain_pipe "fp16" float16 false;
      EvTo (PyStr "cuda");
      EvAutocastEnter (PyStr "cuda");
      EvCall (PyStr "a red circle");
      EvAutocastExit (PyStr "cuda");
      EvSave "" ].
Proof.
  eapply (save_failure_propagates collaborator (Some "") None (Some true)
            (stub_ready NoFault) default_pretrain_pipe (PyStr "cuda")
            (PyStr "a red circle")); reflexivity.
Defined.

Lemma empty_output_raises_index_error_witness :
  generate_image_from_prompt None None None (answering_ready [[]]) =
    (inl (IndexError "list index out of range"),
     @State (answering [[]]) (self_dict (answering_ready [[]])) (Mk true NoFault 4)
       (fs (answering_ready [[]]))
       (trace (answering_ready [[]]) ++
        [ EvFromPretrained default_pretrain_pipe "fp16" float16 false;
          EvTo (PyStr "cuda");
          EvAutocastEnter (PyStr "cuda");
          EvCall (PyStr "a red circle");
          EvAutocastExit (PyStr "cuda") ])).
Proof.
  eapply (empty_output_raises_index_error (answering [[]]) None None None
            (answering_ready [[]]) default_pretrain_pipe (PyStr "cuda")
            (PyStr "a red circle")); reflexivity.
Defined.

Lemma autocast_context_is_always_left_witness :
  ∃ t,
    trace (snd (generate_image_from_prompt None None None (stub_ready AtInvoke))) =
      trace (stub_ready AtInvoke) ++ t ∧
    EvAutocastExit (PyStr "cuda") ∈ t ∧
    collab (snd (generate_image_from_prompt None None None (stub_ready AtInvoke))) =
      Mk true AtInvoke 4.
Proof.
  apply (autocast_context_is_always_left collaborator None None None
           (stub_ready AtInvoke) default_pretrain_pipe (PyStr "cuda")
           (PyStr "a red circle") default_pretrain_pipe (Mk true AtInvoke 1)
           default_pretrain_pipe (Mk true AtInvoke 2) (Mk true AtInvoke 3)); reflexivity.
Defined.


Lemma selectbox_overrides_text_witness :
  match fst (text_prompt (PyStr "Style 2")
               (Browser.start true (PyStr "Style 2") (PyStr "a red circle"))) with
  | inr p => p = PyStr "Style 2"
  | inl _ => False
  end.
Proof.
  exact (selectbox_overrides_text collaborator Browser.frontend (PyStr "Style 2")
           (Browser.start true (PyStr "Style 2") (PyStr "a red circle"))
           (PyStr "Style 2")
           (snd (text_prompt (PyStr "Style 2")
                   (Browser.start true (PyStr "Style 2") (PyStr "a red circle"))))
           eq_refl eq_refl).
Defined.

Lemma text_is_used_under_None_witness :
  ∃ typed,
    fst (streamlit Browser.frontend (st_text_input "Input the prompt desired")
           (ui (Browser.start true (PyStr "None") (PyStr "a red circle")))) = inr typed ∧
    PyStr "a red circle" = if is_None typed then PyStr "None" else typed.
Proof.
  apply (text_is_used_under_None collaborator Browser.frontend
           (Browser.start true (PyStr "None") (PyStr "a red circle"))
           (PyStr "a red circle")
           (snd (text_prompt (PyStr "None")
                   (Browser.start true (PyStr "None") (PyStr "a red circle"))))).
  reflexivity.
Defined.

Lemma handle_prompt_gate_witness :
  handle_prompt (PyStr "") (Browser.start true (PyStr "None") (PyStr "")) =
    (inr tt, Browser.start true (PyStr "None") (PyStr "")).
Proof.
  apply (handle_prompt_gate collaborator Browser.frontend (PyStr "")
           (Browser.start true (PyStr "None") (PyStr ""))).
  intros n [= <-]. reflexivity.
Defined.

Lemma normal_return_shows_image_witness :
  ∃ t log,
    trace (world (snd (main (Browser.start true (PyStr "Style 1") (PyStr "a red circle")))))
      = trace (world (Browser.start true (PyStr "Style 1") (PyStr "a red circle"))) ++ t ∧
    shown (snd (main (Browser.start true (PyStr "Style 1") (PyStr "a red circle"))))
      = shown (Browser.start true (PyStr "Style 1") (PyStr "a red circle")) ++ log ∧
    (t = [] ∨ ∃ img v, (st_image_object img, inr v) ∈ log).
Proof.
  apply (normal_return_shows_image collaborator Browser.frontend
           (Browser.start true (PyStr "Style 1") (PyStr "a red circle"))).
  vm_compute. reflexivity.
Defined.

Lemma main_without_accelerator_witness :
  ∃ t log,
    trace (world (snd (main (Browser.start false (PyStr "Style 1") (PyStr "")))))
      = trace (world (Browser.start false (PyStr "Style 1") (PyStr ""))) ++ t ∧
    shown (snd (main (Browser.start false (PyStr "Style 1") (PyStr ""))))
      = shown (Browser.start false (PyStr "Style 1") (PyStr "")) ++ log ∧
    fs (world (snd (main (Browser.start false (PyStr "Style 1") (PyStr "")))))
      = fs (world (Browser.start false (PyStr "Style 1") (PyStr ""))) ∧
    collab (world (snd (main (Browser.start false (PyStr "Style 1") (PyStr "")))))
      = collab (world (Browser.start false (PyStr "Style 1") (PyStr ""))) ∧
    (∀ c r, (c, r) ∈ log → reports_generation c = false) ∧
    (t ≠ [] →
     ∃ e, fst (main (Browser.start false (PyStr "Style 1") (PyStr ""))) = inl e).
Proof.
  apply (main_without_accelerator collaborator Browser.frontend
           (Browser.start false (PyStr "Style 1") (PyStr ""))).
  reflexivity.
Defined.

(** The run of the script on the stubs, with an accelerator and the
    selectbox on its first option: the typed text plays no part. *)
Example main_on_the_stub :
  trace (world (snd (main (Browser.start true (PyStr "Style 1") (PyStr "a red circle"))))) =
    [ EvPrint "Style 1";
      EvCudaIsAvailable;
      EvFromPretrained (PyStr "CompVis/stable-diffusion-v1-4") "fp16" float16 false;
      EvTo (PyStr "cuda");
      EvAutocastEnter (PyStr "cuda");
      EvCall (PyStr "Style 1");
      EvAutocastExit (PyStr "cuda");
      EvSave "prompt.jpg" ].
Proof. reflexivity. Qed.

End MoreRuns.
